(** * cylon-bb8: the BB8 command driver (lib/driver.js)

    A shallow embedding of the driver.  The driver is callback-driven JavaScript:
    every method logs, possibly stores the heading, builds a payload and hands
    it to the BLE connection together with a completion handler.  The methods
    are embedded as programs of a small free monad whose effects are the calls
    that leave the driver (logger, connection, caller-supplied functions) and
    the accesses to the one mutable field, [heading].  An interpreter runs such
    a program against a transport and records the trace of what happened.

    The two libraries the driver calls, Node's [Buffer] constructor and the
    spheron packet encoder, are parameters.  [Raising] is the prototype with
    libraries that may throw; [Section Driver] is the prototype with
    libraries that return, which is [Raising] at accepting libraries. *)

From Stdlib Require Import ZArith String Ascii List Bool Lia.
From stdpp Require Import gmap strings.
Import ListNotations.

Local Open Scope Z_scope.
Local Open Scope string_scope.
Local Open Scope list_scope.

(** ** JavaScript values *)

(** The values that cross the driver's boundary.  [VFun f] is a function
    supplied from outside the driver (a caller's callback), known by its
    identity [f]; [VHost n] is any other host object (an Error instance, a
    notifier, a packet, a buffer). *)
#[local] Set Warnings "-register-all".
Inductive Value : Type :=
| VUndefined
| VNull
| VBool (b : bool)
| VNum (n : Z)
| VNaN
| VStr (s : string)
| VArr (elems : list Value)
| VObj (fields : list (string * Value))
| VFun (f : string)
| VHost (n : nat).

(** [typeof v === "function"] *)
Definition typeof_function (v : Value) : bool :=
  match v with
  | VFun _ => true
  | _ => false
  end.

(** JavaScript truthiness, as used by [if (error)]. *)
Definition truthy (v : Value) : bool :=
  match v with
  | VUndefined | VNull | VNaN => false
  | VBool b => b
  | VNum n => negb (Z.eqb n 0)
  | VStr s => negb (String.eqb s "")
  | VArr _ | VObj _ | VFun _ | VHost _ => true
  end.

(** [str.charCodeAt(i)]: the code of the i-th character, NaN out of range.
    Exact for strings of 7-bit characters, such as the driver's one literal. *)
Definition charCodeAt (str : string) (i : nat) : Value :=
  match String.get i str with
  | Some a => VNum (Z.of_nat (nat_of_ascii a))
  | None => VNaN
  end.

(** ** Characteristic addresses (driver.js, lines 16-24) *)

Definition BLE_SERVICE   : Value := VStr "22bb746f2bb075542d6f726568705327".
Definition BLE_WAKE      : Value := VStr "22bb746f2bbf75542d6f726568705327".
Definition BLE_TX_POWER  : Value := VStr "22bb746f2bb275542d6f726568705327".
Definition BLE_ANTI_DOS  : Value := VStr "22bb746f2bbd75542d6f726568705327".
Definition BLE_RSSI      : Value := VStr "22bb746f2bb675542d6f726568705327".

Definition ROBOT_SERVICE : Value := VStr "22bb746f2ba075542d6f726568705327".
Definition ROBOT_COMMAND : Value := VStr "22bb746f2ba175542d6f726568705327".
Definition ROBOT_NOTIFY  : Value := VStr "22bb746f2ba675542d6f726568705327".

(** ** The driver object *)

(** The functions installed on [BB8Driver.prototype]. *)
Inductive Method : Set :=
| m_start | m_halt
| m_wake | m_setTXPower | m_devModeOn | m_setAntiDos
| m_setRGB | m_roll | m_stop | m_setRawMotorValues | m_setStabilization
| m_setDataStreaming | m_getDeviceMode | m_getRGB | m_getPowerState
| m_getChassisID
| m__writeServiceCharacteristic | m__readServiceCharacteristic
| m_getServiceCharacteristic.

#[global] Instance Method_eq_dec : EqDecision Method.
Proof. solve_decision. Defined.

(** [BB8Driver.prototype.<name> = function ...], in source order. *)
Definition prototype : gmap string Method :=
  list_to_map
    [ ("start", m_start); ("halt", m_halt);
      ("wake", m_wake); ("setTXPower", m_setTXPower);
      ("devModeOn", m_devModeOn); ("setAntiDos", m_setAntiDos);
      ("setRGB", m_setRGB); ("roll", m_roll); ("stop", m_stop);
      ("setRawMotorValues", m_setRawMotorValues);
      ("setStabilization", m_setStabilization);
      ("setDataStreaming", m_setDataStreaming);
      ("getDeviceMode", m_getDeviceMode); ("getRGB", m_getRGB);
      ("getPowerState", m_getPowerState); ("getChassisID", m_getChassisID);
      ("_writeServiceCharacteristic", m__writeServiceCharacteristic);
      ("_readServiceCharacteristic", m__readServiceCharacteristic);
      ("getServiceCharacteristic", m_getServiceCharacteristic) ].

(** The fields the constructor assigns on [this]. *)
Record BB8Driver : Type := mkBB8Driver {
  commands : gmap string Method;
  MotorOff : Z;
  MotorForward : Z;
  MotorReverse : Z;
  MotorBrake : Z;
  MotorIgnore : Z;
  heading : Value
}.

(** The constructor (driver.js, lines 26-56).  [wake: this.wake] binds the name
    to the prototype's function.  The call of the super constructor belongs to
    the framework; it supplies the fields the driver does not assign itself,
    among them [connection]. *)
Definition new_BB8Driver : BB8Driver :=
  {| commands :=
       list_to_map
         [ ("wake", m_wake);
           ("setTXPower", m_setTXPower);
           ("setRGB", m_setRGB);
           ("roll", m_roll);
           ("stop", m_stop);
           ("setRawMotorValues", m_setRawMotorValues);
           ("setStabilization", m_setStabilization) ];
     MotorOff := 0;
     MotorForward := 1;
     MotorReverse := 2;
     MotorBrake := 3;
     MotorIgnore := 4;
     heading := VNum 0 |}.

(** [this.heading = v] *)
Definition set_heading (v : Value) (this : BB8Driver) : BB8Driver :=
  {| commands := commands this;
     MotorOff := MotorOff this;
     MotorForward := MotorForward this;
     MotorReverse := MotorReverse this;
     MotorBrake := MotorBrake this;
     MotorIgnore := MotorIgnore this;
     heading := v |}.

(** ** Programs of the driver *)

(** What a driver method can do to the world outside its own code.  The index
    is the type of the answer the method continues with.

    - [connection_writeServiceCharacteristic s c buf] is
      [this.connection.writeServiceCharacteristic(s, c, buf, handler)]; the
      answer is the [(err, data)] pair with which the transport calls
      [handler], and the continuation of the effect is the body of [handler].
      The transport contract (every request is completed, once) is assumed.
    - [connection_getCharacteristic] likewise, answering [(error, notifier)].
    - [connection_readServiceCharacteristic s c callback] hands the caller's
      callback to the transport, which owns it from there.
    - [call_function f args] calls a function the caller supplied; what that
      function does is not driver code. *)
Inductive Effect : Type -> Type :=
| Logger_debug (msg : string) (args : list Value) : Effect unit
| get_this_heading : Effect Value
| set_this_heading (v : Value) : Effect unit
| connection_writeServiceCharacteristic (s c buf : Value)
    : Effect (Value * Value)
| connection_readServiceCharacteristic (s c callback : Value) : Effect unit
| connection_getCharacteristic (s c : Value) : Effect (Value * Value)
| call_function (f : string) (args : list Value) : Effect unit.

(** Exceptions that leave driver code: the TypeError of calling a value that
    is not a function, and whatever [new Buffer] or the packet encoder
    throws, which the driver never catches. *)
Inductive Exn : Set :=
| TypeError_not_a_function (v : Value)
| Library_exception (e : Value).

Inductive Prog (A : Type) : Type :=
| Ret (a : A)
| Throw (e : Exn)
| Vis {X : Type} (e : Effect X) (k : X -> Prog A).

Arguments Ret {A} a.
Arguments Throw {A} e.
Arguments Vis {A X} e k.

Fixpoint Prog_bind {A B : Type} (f : A -> Prog B) (p : Prog A) : Prog B :=
  match p with
  | Ret a => f a
  | Throw e => Throw e
  | Vis e k => Vis e (fun x => Prog_bind f (k x))
  end.

#[global] Instance Prog_ret : MRet Prog := fun A a => Ret a.
#[global] Instance Prog_mbind : MBind Prog := fun A B f p => Prog_bind f p.

Definition trigger {X : Type} (e : Effect X) : Prog X := Vis e Ret.

(** A function value in callback position: either whatever the caller passed
    ([External]), or a function expression written inside the driver
    ([Closure], its body a program over the actual arguments). *)
Inductive Callback : Type :=
| External (v : Value)
| Closure (body : list Value -> Prog unit).

(** [typeof callback === "function"] *)
Definition is_function (callback : Callback) : bool :=
  match callback with
  | External v => typeof_function v
  | Closure _ => true
  end.

(** [callback(args...)]: calling a non-function raises a TypeError. *)
Definition call (callback : Callback) (args : list Value) : Prog unit :=
  match callback with
  | Closure body => body args
  | External (VFun f) => trigger (call_function f args)
  | External v => Throw (TypeError_not_a_function v)
  end.

(** The i-th actual argument; a missing argument is [undefined]. *)
Definition arg (i : nat) (args : list Value) : Value := nth i args VUndefined.

(** ** Running a program *)

(** What an observer of the driver's boundary sees, in order.  A request to
    the transport and its completion are separate events. *)
Inductive Event : Type :=
| EvLog (msg : string) (args : list Value)
| EvSetHeading (v : Value)
| EvWrite (s c buf : Value)
| EvWriteDone (err data : Value)
| EvRead (s c callback : Value)
| EvGetCharacteristic (s c : Value)
| EvGetCharacteristicDone (error notifier : Value)
| EvCall (f : string) (args : list Value).

(** The transport, seen from the driver: the [(error, data)] pair with which
    it completes its n-th request (counting from 0).  Every sequence of
    answers is some [Transport]. *)
Definition Transport : Type := nat -> Value * Value.

Record Machine : Type := mkMachine {
  this : BB8Driver;
  requests : nat;
  trace : list Event
}.

Definition boot (d : BB8Driver) : Machine :=
  {| this := d; requests := 0; trace := [] |}.

Definition emit (evs : list Event) (m : Machine) : Machine :=
  {| this := this m; requests := requests m; trace := trace m ++ evs |}.

Definition answered (evs : list Event) (m : Machine) : Machine :=
  {| this := this m; requests := S (requests m); trace := trace m ++ evs |}.

Definition handle (tp : Transport) {X : Type} (e : Effect X) (m : Machine)
  : X * Machine :=
  match e in Effect X return X * Machine with
  | Logger_debug msg args => (tt, emit [EvLog msg args] m)
  | get_this_heading => (heading (this m), m)
  | set_this_heading v =>
      (tt, {| this := set_heading v (this m);
              requests := requests m;
              trace := trace m ++ [EvSetHeading v] |})
  | connection_writeServiceCharacteristic s c buf =>
      let r := tp (requests m) in
      (r, answered [EvWrite s c buf; EvWriteDone (fst r) (snd r)] m)
  | connection_readServiceCharacteristic s c callback =>
      (tt, emit [EvRead s c callback] m)
  | connection_getCharacteristic s c =>
      let r := tp (requests m) in
      (r, answered [EvGetCharacteristic s c;
                    EvGetCharacteristicDone (fst r) (snd r)] m)
  | call_function f args => (tt, emit [EvCall f args] m)
  end.

Inductive Result (A : Type) : Type :=
| Returned (a : A)
| Raised (e : Exn).

Arguments Returned {A} a.
Arguments Raised {A} e.

Fixpoint run (tp : Transport) {A : Type} (p : Prog A) (m : Machine)
  : Result A * Machine :=
  match p with
  | Ret a => (Returned a, m)
  | Throw e => (Raised e, m)
  | Vis e k => let (x, m') := handle tp e m in run tp (k x) m'
  end.

(** Projections of a trace. *)
Definition write_of (ev : Event) : option (Value * Value * Value) :=
  match ev with
  | EvWrite s c buf => Some (s, c, buf)
  | _ => None
  end.

Definition call_of (ev : Event) : option (string * list Value) :=
  match ev with
  | EvCall f args => Some (f, args)
  | _ => None
  end.

Definition heading_set_of (ev : Event) : option Value :=
  match ev with
  | EvSetHeading v => Some v
  | _ => None
  end.

(** The characteristic writes handed to the transport, in order. *)
Definition writes (tr : list Event) : list (Value * Value * Value) :=
  omap write_of tr.

(** The calls made to caller-supplied functions, in order. *)
Definition calls (tr : list Event) : list (string * list Value) :=
  omap call_of tr.

(** The values assigned to [this.heading], in order. *)
Definition heading_sets (tr : list Event) : list Value :=
  omap heading_set_of tr.

(** ** Concrete collaborators, for running the driver on examples *)

(** A buffer that records the value it was built from. *)
Definition recording_Buffer (value : Value) : Value :=
  VObj [("Buffer", value)].

(** An encoder that records the command and the arguments it was given. *)
Definition recording_encoder (family name : string) (args : list Value)
  : Value :=
  VObj [("family", VStr family); ("command", VStr name); ("args", VArr args)].

(** A transport that fails every request. *)
Definition failing_transport : Transport :=
  fun _ => (VStr "write failed", VUndefined).

(** ** The options records *)

(** [{resetTimeout: true}] *)
Definition opts_resetTimeout : Value :=
  VObj [("resetTimeout", VBool true)].

(** [{resetTimeout: true, requestAcknowledgement: true}] *)
Definition opts_resetTimeout_ack : Value :=
  VObj [("resetTimeout", VBool true); ("requestAcknowledgement", VBool true)].

(** ** The byte loop of [setAntiDos] *)

(** The loop of lines 140-142:
    [for (var i = 0; i < str.length; ++i) bytes.push(str.charCodeAt(i))].
    [n] bounds the iterations left; started at [str.length] it never runs
    out before the loop condition fails. *)
Fixpoint setAntiDos_loop (str : string) (n i : nat) (bytes : list Value)
  : list Value :=
  match n with
  | O => bytes
  | S n' =>
      if (i <? String.length str)%nat
      then setAntiDos_loop str n' (S i) (bytes ++ [charCodeAt str i])
      else bytes
  end.

(** ** The methods, with libraries that can throw *)

(** [new Buffer(value)] and the encoder functions are not driver code, and
    both can throw instead of returning: the driver calls them with whatever
    its caller passed and catches nothing.  [Raising] is the prototype with
    both libraries as parameters that either give a value or throw. *)
Module Raising.

(** What a library call comes to. *)
Inductive Evaluated : Type :=
| Gives (v : Value)
| Throws (e : Value).

(** [Buffer_new value] is [new Buffer(value)] of the Node runtime;
    [Sphero_commands family name args] is
    [Sphero.commands.<family>.<name>(args...)] of hybridgroup-spheron.  Both
    are left uninterpreted. *)
Class Libraries : Type := {
  Buffer_new : Value -> Evaluated;
  Sphero_commands : string -> string -> list Value -> Evaluated
}.

(** A library call inside a driver method: a thrown value propagates. *)
Definition eval (r : Evaluated) : Prog Value :=
  match r with
  | Gives v => Ret v
  | Throws e => Throw (Library_exception e)
  end.

Section Methods.

Context {lib : Libraries}.

(** lines 353-361; the arguments of the transport call, [new Buffer(value)]
    among them, are evaluated before the call. *)
Definition _writeServiceCharacteristic
    (s c value : Value) (callback : Callback) : Prog unit :=
  buf ← eval (Buffer_new value);
  '(err, data) ← trigger (connection_writeServiceCharacteristic s c buf);
  if is_function callback then call callback [err; data] else mret tt.

(** lines 363-365 *)
Definition _readServiceCharacteristic (s c callback : Value) : Prog unit :=
  trigger (connection_readServiceCharacteristic s c callback).

(** lines 367-376 *)
Definition getServiceCharacteristic
    (s c : Value) (callback : Callback) : Prog unit :=
  '(error, notifier) ← trigger (connection_getCharacteristic s c);
  if truthy error
  then call callback [error]
  else call callback [VNull; notifier].

(** lines 60-63 *)
Definition start (callback : Callback) : Prog unit :=
  trigger (Logger_debug "BB8Driver.start" []) ;;
  call callback [].

(** lines 65-68 *)
Definition halt (callback : Callback) : Prog unit :=
  trigger (Logger_debug "BB8Driver.halt" []) ;;
  call callback [].

(** lines 79-87 *)
Definition wake (callback : Callback) : Prog unit :=
  trigger (Logger_debug "BB8Driver.wake" []) ;;
  _writeServiceCharacteristic BLE_SERVICE BLE_WAKE (VNum 1) callback.

(** lines 99-102 *)
Definition setTXPower (level : Value) (callback : Callback) : Prog unit :=
  trigger (Logger_debug "BB8Driver.setTXPower (level)" [level]) ;;
  _writeServiceCharacteristic BLE_SERVICE BLE_TX_POWER level callback.

(** lines 135-145 *)
Definition setAntiDos (callback : Callback) : Prog unit :=
  trigger (Logger_debug "BB8Driver.setAntiDos" []) ;;
  let str := "011i3" in
  let bytes := setAntiDos_loop str (String.length str) 0 [] in
  _writeServiceCharacteristic BLE_SERVICE BLE_ANTI_DOS (VArr bytes) callback.

(** lines 114-125 *)
Definition devModeOn (callback : Callback) : Prog unit :=
  trigger (Logger_debug "BB8Driver.devModeOn" []) ;;
  setAntiDos (Closure (fun _ =>
    setTXPower (VNum 7) (Closure (fun _ =>
      wake (Closure (fun args =>
        let err := arg 0 args in
        let data := arg 1 args in
        call callback [err; data])))))).

(** lines 158-166 *)
Definition setRGB (color persist : Value) (callback : Callback)
  : Prog unit :=
  trigger (Logger_debug "BB8Driver.setRGB (color,persist)" [color; persist]) ;;
  packet ← eval (Sphero_commands "api" "setRGB"
                   [color; persist; opts_resetTimeout]);
  _writeServiceCharacteristic ROBOT_SERVICE ROBOT_COMMAND packet callback.

(** lines 178-194: the heading is stored before the encoder is called. *)
Definition roll (speed heading state : Value) (callback : Callback)
  : Prog unit :=
  trigger (Logger_debug "BB8Driver.roll (speed,heading,state)"
             [speed; heading; state]) ;;
  trigger (set_this_heading heading) ;;
  packet ← eval (Sphero_commands "api" "roll"
                   [speed; heading; state; opts_resetTimeout]);
  _writeServiceCharacteristic ROBOT_SERVICE ROBOT_COMMAND packet callback.

(** lines 203-206 *)
Definition stop (callback : Callback) : Prog unit :=
  trigger (Logger_debug "BB8Driver.stop" []) ;;
  this_heading ← trigger get_this_heading;
  roll (VNum 0) this_heading (VNum 1) callback.

(** lines 225-238 *)
Definition setRawMotorValues (lm lp rm rp : Value) (callback : Callback)
  : Prog unit :=
  trigger (Logger_debug "BB8Driver.setRawMotorValues" []) ;;
  packet ← eval (Sphero_commands "api" "setRawMotorValues"
                   [lm; lp; rm; rp; opts_resetTimeout]);
  _writeServiceCharacteristic ROBOT_SERVICE ROBOT_COMMAND packet callback.

(** lines 250-262 *)
Definition setStabilization (enable : Value) (callback : Callback)
  : Prog unit :=
  trigger (Logger_debug "BB8Driver.setStabilization" []) ;;
  packet ← eval (Sphero_commands "api" "setStabilization"
                   [enable; opts_resetTimeout]);
  _writeServiceCharacteristic ROBOT_SERVICE ROBOT_COMMAND packet callback.

(** lines 273-286 *)
Definition setDataStreaming
    (sensorRateDivisor frames mask packetCount mask2 : Value)
    (callback : Callback) : Prog unit :=
  trigger (Logger_debug "BB8Driver.setDataStreaming" []) ;;
  packet ← eval (Sphero_commands "api" "setDataStreaming"
                   [sensorRateDivisor; frames; mask; packetCount; mask2;
                    opts_resetTimeout_ack]);
  _writeServiceCharacteristic ROBOT_SERVICE ROBOT_COMMAND packet callback.

(** lines 288-299 *)
Definition getDeviceMode (callback : Callback) : Prog unit :=
  trigger (Logger_debug "BB8Driver.getDeviceMode" []) ;;
  packet ← eval (Sphero_commands "api" "getDeviceMode"
                   [opts_resetTimeout_ack]);
  _writeServiceCharacteristic ROBOT_SERVICE ROBOT_COMMAND packet callback.

(** lines 301-313 *)
Definition getRGB (callback : Callback) : Prog unit :=
  trigger (Logger_debug "BB8Driver.getRGB" []) ;;
  packet ← eval (Sphero_commands "api" "getRGB" [opts_resetTimeout_ack]);
  _writeServiceCharacteristic ROBOT_SERVICE ROBOT_COMMAND packet callback.

(** lines 315-326 *)
Definition getPowerState (callback : Callback) : Prog unit :=
  trigger (Logger_debug "BB8Driver.getPowerState" []) ;;
  packet ← eval (Sphero_commands "core" "getPowerState"
                   [opts_resetTimeout_ack]);
  _writeServiceCharacteristic ROBOT_SERVICE ROBOT_COMMAND packet callback.

(** lines 328-340 *)
Definition getChassisID (callback : Callback) : Prog unit :=
  trigger (Logger_debug "BB8Driver.getChassisID" []) ;;
  packet ← eval (Sphero_commands "api" "getChassisID"
                   [opts_resetTimeout_ack]);
  _writeServiceCharacteristic ROBOT_SERVICE ROBOT_COMMAND packet callback.

(** Calling a prototype function with a list of actual arguments. *)
Definition apply_method (f : Method) (args : list Value) : Prog unit :=
  let a i := arg i args in
  let cb i := External (arg i args) in
  match f with
  | m_start => start (cb 0%nat)
  | m_halt => halt (cb 0%nat)
  | m_wake => wake (cb 0%nat)
  | m_setTXPower => setTXPower (a 0%nat) (cb 1%nat)
  | m_devModeOn => devModeOn (cb 0%nat)
  | m_setAntiDos => setAntiDos (cb 0%nat)
  | m_setRGB => setRGB (a 0%nat) (a 1%nat) (cb 2%nat)
  | m_roll => roll (a 0%nat) (a 1%nat) (a 2%nat) (cb 3%nat)
  | m_stop => stop (cb 0%nat)
  | m_setRawMotorValues =>
      setRawMotorValues (a 0%nat) (a 1%nat) (a 2%nat) (a 3%nat) (cb 4%nat)
  | m_setStabilization => setStabilization (a 0%nat) (cb 1%nat)
  | m_setDataStreaming =>
      setDataStreaming (a 0%nat) (a 1%nat) (a 2%nat) (a 3%nat) (a 4%nat)
        (cb 5%nat)
  | m_getDeviceMode => getDeviceMode (cb 0%nat)
  | m_getRGB => getRGB (cb 0%nat)
  | m_getPowerState => getPowerState (cb 0%nat)
  | m_getChassisID => getChassisID (cb 0%nat)
  | m__writeServiceCharacteristic =>
      _writeServiceCharacteristic (a 0%nat) (a 1%nat) (a 2%nat) (cb 3%nat)
  | m__readServiceCharacteristic =>
      _readServiceCharacteristic (a 0%nat) (a 1%nat) (a 2%nat)
  | m_getServiceCharacteristic =>
      getServiceCharacteristic (a 0%nat) (a 1%nat) (cb 2%nat)
  end.

End Methods.

(** Libraries that never throw. *)
Definition accepting
    (Buffer_new : Value -> Value)
    (Sphero_commands : string -> string -> list Value -> Value)
  : Libraries :=
  {| Buffer_new := fun value => Gives (Buffer_new value);
     Sphero_commands := fun family name args =>
       Gives (Sphero_commands family name args) |}.

(** Libraries for the examples.  The buffer constructor throws on
    [undefined], [null], a boolean, a plain object and a negative number, as
    Node's does, and otherwise records its argument.  The encoder writes roll's speed and
    state as unsigned bytes and its heading as an unsigned 16-bit number, as
    spheron's does, and throws when one does not fit; every other command it
    records. *)
Definition checking_Buffer (value : Value) : Evaluated :=
  match value with
  | VUndefined | VNull | VBool _ | VObj _ => Throws (VStr "TypeError")
  | VNum n => if Z.ltb n 0 then Throws (VStr "RangeError")
              else Gives (VArr [VStr "Buffer"; value])
  | _ => Gives (VArr [VStr "Buffer"; value])
  end.

Definition fits (bits : Z) (v : Value) : bool :=
  match v with
  | VNum n => Z.leb 0 n && Z.ltb n (2 ^ bits)
  | _ => false
  end.

Definition checking_encoder (family name : string) (args : list Value)
  : Evaluated :=
  if String.eqb name "roll"
  then if fits 8 (arg 0 args) && fits 16 (arg 1 args) && fits 8 (arg 2 args)
       then Gives (VArr (VStr name :: args))
       else Throws (VStr "RangeError")
  else Gives (VArr (VStr name :: args)).

Definition checking : Libraries :=
  {| Buffer_new := checking_Buffer; Sphero_commands := checking_encoder |}.

End Raising.

(** ** The methods, with libraries that return *)

(** The same prototype where both libraries accept what they are given; it
    is [Raising] at [Raising.accepting] libraries. *)
Section Driver.

(** [new Buffer(value)] of the Node runtime, left uninterpreted. *)
Variable Buffer_new : Value -> Value.

(** [Sphero.commands.<family>.<name>(args...)] of hybridgroup-spheron, the
    packet encoder, left uninterpreted. *)
Variable Sphero_commands : string -> string -> list Value -> Value.

(** lines 353-361 *)
Definition _writeServiceCharacteristic
    (s c value : Value) (callback : Callback) : Prog unit :=
  '(err, data) ← trigger
      (connection_writeServiceCharacteristic s c (Buffer_new value));
  if is_function callback then call callback [err; data] else mret tt.

(** lines 363-365 *)
Definition _readServiceCharacteristic (s c callback : Value) : Prog unit :=
  trigger (connection_readServiceCharacteristic s c callback).

(** lines 367-376 *)
Definition getServiceCharacteristic
    (s c : Value) (callback : Callback) : Prog unit :=
  '(error, notifier) ← trigger (connection_getCharacteristic s c);
  if truthy error
  then call callback [error]
  else call callback [VNull; notifier].

(** lines 60-63 *)
Definition start (callback : Callback) : Prog unit :=
  trigger (Logger_debug "BB8Driver.start" []) ;;
  call callback [].

(** lines 65-68 *)
Definition halt (callback : Callback) : Prog unit :=
  trigger (Logger_debug "BB8Driver.halt" []) ;;
  call callback [].

(** lines 79-87 *)
Definition wake (callback : Callback) : Prog unit :=
  trigger (Logger_debug "BB8Driver.wake" []) ;;
  _writeServiceCharacteristic BLE_SERVICE BLE_WAKE (VNum 1) callback.

(** lines 99-102 *)
Definition setTXPower (level : Value) (callback : Callback) : Prog unit :=
  trigger (Logger_debug "BB8Driver.setTXPower (level)" [level]) ;;
  _writeServiceCharacteristic BLE_SERVICE BLE_TX_POWER level callback.

(** lines 135-145 *)
Definition setAntiDos (callback : Callback) : Prog unit :=
  trigger (Logger_debug "BB8Driver.setAntiDos" []) ;;
  let str := "011i3" in
  let bytes := setAntiDos_loop str (String.length str) 0 [] in
  _writeServiceCharacteristic BLE_SERVICE BLE_ANTI_DOS (VArr bytes) callback.

(** lines 114-125; [bb8] is [this], the same object throughout. *)
Definition devModeOn (callback : Callback) : Prog unit :=
  trigger (Logger_debug "BB8Driver.devModeOn" []) ;;
  setAntiDos (Closure (fun _ =>
    setTXPower (VNum 7) (Closure (fun _ =>
      wake (Closure (fun args =>
        let err := arg 0 args in
        let data := arg 1 args in
        call callback [err; data])))))).

(** lines 158-166 *)
Definition setRGB (color persist : Value) (callback : Callback)
  : Prog unit :=
  trigger (Logger_debug "BB8Driver.setRGB (color,persist)" [color; persist]) ;;
  let packet :=
    Sphero_commands "api" "setRGB" [color; persist; opts_resetTimeout] in
  _writeServiceCharacteristic ROBOT_SERVICE ROBOT_COMMAND packet callback.

(** lines 178-194 *)
Definition roll (speed heading state : Value) (callback : Callback)
  : Prog unit :=
  trigger (Logger_debug "BB8Driver.roll (speed,heading,state)"
             [speed; heading; state]) ;;
  trigger (set_this_heading heading) ;;
  let packet :=
    Sphero_commands "api" "roll" [speed; heading; state; opts_resetTimeout] in
  _writeServiceCharacteristic ROBOT_SERVICE ROBOT_COMMAND packet callback.

(** lines 203-206 *)
Definition stop (callback : Callback) : Prog unit :=
  trigger (Logger_debug "BB8Driver.stop" []) ;;
  this_heading ← trigger get_this_heading;
  roll (VNum 0) this_heading (VNum 1) callback.

(** lines 225-238 *)
Definition setRawMotorValues (lm lp rm rp : Value) (callback : Callback)
  : Prog unit :=
  trigger (Logger_debug "BB8Driver.setRawMotorValues" []) ;;
  let packet :=
    Sphero_commands "api" "setRawMotorValues"
      [lm; lp; rm; rp; opts_resetTimeout] in
  _writeServiceCharacteristic ROBOT_SERVICE ROBOT_COMMAND packet callback.

(** lines 250-262 *)
Definition setStabilization (enable : Value) (callback : Callback)
  : Prog unit :=
  trigger (Logger_debug "BB8Driver.setStabilization" []) ;;
  let packet :=
    Sphero_commands "api" "setStabilization" [enable; opts_resetTimeout] in
  _writeServiceCharacteristic ROBOT_SERVICE ROBOT_COMMAND packet callback.

(** lines 273-286 *)
Definition setDataStreaming
    (sensorRateDivisor frames mask packetCount mask2 : Value)
    (callback : Callback) : Prog unit :=
  trigger (Logger_debug "BB8Driver.setDataStreaming" []) ;;
  let packet :=
    Sphero_commands "api" "setDataStreaming"
      [sensorRateDivisor; frames; mask; packetCount; mask2;
       opts_resetTimeout_ack] in
  _writeServiceCharacteristic ROBOT_SERVICE ROBOT_COMMAND packet callback.

(** lines 288-299 *)
Definition getDeviceMode (callback : Callback) : Prog unit :=
  trigger (Logger_debug "BB8Driver.getDeviceMode" []) ;;
  let packet :=
    Sphero_commands "api" "getDeviceMode" [opts_resetTimeout_ack] in
  _writeServiceCharacteristic ROBOT_SERVICE ROBOT_COMMAND packet callback.

(** lines 301-313 *)
Definition getRGB (callback : Callback) : Prog unit :=
  trigger (Logger_debug "BB8Driver.getRGB" []) ;;
  let packet := Sphero_commands "api" "getRGB" [opts_resetTimeout_ack] in
  _writeServiceCharacteristic ROBOT_SERVICE ROBOT_COMMAND packet callback.

(** lines 315-326 *)
Definition getPowerState (callback : Callback) : Prog unit :=
  trigger (Logger_debug "BB8Driver.getPowerState" []) ;;
  let packet :=
    Sphero_commands "core" "getPowerState" [opts_resetTimeout_ack] in
  _writeServiceCharacteristic ROBOT_SERVICE ROBOT_COMMAND packet callback.

(** lines 328-340 *)
Definition getChassisID (callback : Callback) : Prog unit :=
  trigger (Logger_debug "BB8Driver.getChassisID" []) ;;
  let packet :=
    Sphero_commands "api" "getChassisID" [opts_resetTimeout_ack] in
  _writeServiceCharacteristic ROBOT_SERVICE ROBOT_COMMAND packet callback.

(** Calling a prototype function with a list of actual arguments, as the
    framework does through [commands] or a caller does directly. *)
Definition apply_method (f : Method) (args : list Value) : Prog unit :=
  let a i := arg i args in
  let cb i := External (arg i args) in
  match f with
  | m_start => start (cb 0%nat)
  | m_halt => halt (cb 0%nat)
  | m_wake => wake (cb 0%nat)
  | m_setTXPower => setTXPower (a 0%nat) (cb 1%nat)
  | m_devModeOn => devModeOn (cb 0%nat)
  | m_setAntiDos => setAntiDos (cb 0%nat)
  | m_setRGB => setRGB (a 0%nat) (a 1%nat) (cb 2%nat)
  | m_roll => roll (a 0%nat) (a 1%nat) (a 2%nat) (cb 3%nat)
  | m_stop => stop (cb 0%nat)
  | m_setRawMotorValues =>
      setRawMotorValues (a 0%nat) (a 1%nat) (a 2%nat) (a 3%nat) (cb 4%nat)
  | m_setStabilization => setStabilization (a 0%nat) (cb 1%nat)
  | m_setDataStreaming =>
      setDataStreaming (a 0%nat) (a 1%nat) (a 2%nat) (a 3%nat) (a 4%nat)
        (cb 5%nat)
  | m_getDeviceMode => getDeviceMode (cb 0%nat)
  | m_getRGB => getRGB (cb 0%nat)
  | m_getPowerState => getPowerState (cb 0%nat)
  | m_getChassisID => getChassisID (cb 0%nat)
  | m__writeServiceCharacteristic =>
      _writeServiceCharacteristic (a 0%nat) (a 1%nat) (a 2%nat) (cb 3%nat)
  | m__readServiceCharacteristic =>
      _readServiceCharacteristic (a 0%nat) (a 1%nat) (a 2%nat)
  | m_getServiceCharacteristic =>
      getServiceCharacteristic (a 0%nat) (a 1%nat) (cb 2%nat)
  end.

(** Running one method call on driver [d] when the transport has already
    served [n] requests; the trace starts empty, so the final trace is
    exactly what the call made happen. *)
Definition exec (tp : Transport) (n : nat) (d : BB8Driver) (p : Prog unit)
  : Result unit * Machine :=
  run tp p {| this := d; requests := n; trace := [] |}.

(** How the run ends, handlers included.  An exception raised before the
    first transport request is raised into the method's caller; one raised
    after a completion event is raised inside the transport's handler, and
    it is the transport that receives it. *)
Definition result (tp : Transport) (n : nat) (d : BB8Driver) (p : Prog unit)
  : Result unit := fst (exec tp n d p).

Definition events (tp : Transport) (n : nat) (d : BB8Driver) (p : Prog unit)
  : list Event := trace (snd (exec tp n d p)).

Definition final (tp : Transport) (n : nat) (d : BB8Driver) (p : Prog unit)
  : BB8Driver := this (snd (exec tp n d p)).

(** [this.heading = ...] among the effects. *)
Definition assigns_heading {X : Type} (e : Effect X) : bool :=
  match e with
  | set_this_heading _ => true
  | _ => false
  end.

(** A program that never assigns [this.heading]. *)
Inductive heading_untouched {A : Type} : Prog A -> Prop :=
| hu_Ret (a : A) : heading_untouched (Ret a)
| hu_Throw (e : Exn) : heading_untouched (Throw e)
| hu_Vis {X : Type} (e : Effect X) (k : X -> Prog A) :
    assigns_heading e = false ->
    (forall x, heading_untouched (k x)) ->
    heading_untouched (Vis e k).

(** The byte values 0x30, 0x31, 0x31, 0x69, 0x33 as a JavaScript array. *)
Definition anti_dos_bytes : Value :=
  VArr [VNum 0x30; VNum 0x31; VNum 0x31; VNum 0x69; VNum 0x33].

(** The character codes of a string, as JavaScript numbers. *)
Definition char_codes (str : string) : list Value :=
  map (fun a => VNum (Z.of_nat (nat_of_ascii a))) (list_ascii_of_string str).

(** The position of the callback in each prototype function's parameter
    list, read off the function headers. *)
Definition callback_position (f : Method) : nat :=
  match f with
  | m_start | m_halt | m_wake | m_devModeOn | m_setAntiDos | m_stop
  | m_getDeviceMode | m_getRGB | m_getPowerState | m_getChassisID => 0
  | m_setTXPower | m_setStabilization => 1
  | m_setRGB | m__readServiceCharacteristic | m_getServiceCharacteristic => 2
  | m_roll | m__writeServiceCharacteristic => 3
  | m_setRawMotorValues => 4
  | m_setDataStreaming => 5
  end%nat.

(** The number of [_writeServiceCharacteristic] calls in each function. *)
Definition writes_issued (f : Method) : nat :=
  match f with
  | m_start | m_halt
  | m__readServiceCharacteristic | m_getServiceCharacteristic => 0
  | m_devModeOn => 3
  | _ => 1
  end%nat.

(** The (service, characteristic) pairs that occur as a write target in the
    source. *)
Definition write_targets : list (Value * Value) :=
  [ (BLE_SERVICE, BLE_WAKE); (BLE_SERVICE, BLE_TX_POWER);
    (BLE_SERVICE, BLE_ANTI_DOS); (ROBOT_SERVICE, ROBOT_COMMAND) ].

(** For the functions that build their packet from their own parameters:
    the encoder function they call, [Sphero.commands.<family>.<name>], and
    the options record they pass last. *)
Definition encoder_call (f : Method) : option (string * string * Value) :=
  match f with
  | m_setRGB => Some ("api", "setRGB", opts_resetTimeout)
  | m_roll => Some ("api", "roll", opts_resetTimeout)
  | m_setRawMotorValues => Some ("api", "setRawMotorValues", opts_resetTimeout)
  | m_setStabilization => Some ("api", "setStabilization", opts_resetTimeout)
  | m_setDataStreaming =>
      Some ("api", "setDataStreaming", opts_resetTimeout_ack)
  | m_getDeviceMode => Some ("api", "getDeviceMode", opts_resetTimeout_ack)
  | m_getRGB => Some ("api", "getRGB", opts_resetTimeout_ack)
  | m_getPowerState => Some ("core", "getPowerState", opts_resetTimeout_ack)
  | m_getChassisID => Some ("api", "getChassisID", opts_resetTimeout_ack)
  | _ => None
  end.

(** The first [k] actual arguments, in order; missing ones are [undefined]. *)
Definition leading_args (k : nat) (args : list Value) : list Value :=
  map (fun i => arg i args) (seq 0 k).

(** Runs the method in the goal: each time the program waits on the
    transport, its answer is named and the handler continues with it. *)
Ltac answer_transport :=
  repeat (simpl;
          match goal with
          | |- context [let (_, _) := ?r in _] => destruct r as [? ?]
          end);
  simpl.

(** ** Facts about the interpreter *)

Lemma run_bind {A B : Type} (tp : Transport) (p : Prog A) (f : A -> Prog B)
    (m : Machine) :
  run tp (p ≫= f) m =
  match run tp p m with
  | (Returned a, m') => run tp (f a) m'
  | (Raised e, m') => (Raised e, m')
  end.
Proof.
  revert m. induction p as [a | e | X e k IH]; intros m; simpl.
  - reflexivity.
  - reflexivity.
  - destruct (handle tp e m) as [x m']. apply IH.
Qed.

Lemma run_trigger {X : Type} (tp : Transport) (e : Effect X) (m : Machine) :
  run tp (trigger e) m = (Returned (handle tp e m).1, (handle tp e m).2).
Proof. simpl. destruct (handle tp e m); reflexivity. Qed.

(** The write primitive, run with a caller-supplied callback value. *)
Lemma run_write_External (tp : Transport) (s c value cb : Value)
    (m : Machine) :
  run tp (_writeServiceCharacteristic s c value (External cb)) m =
  let r := tp (requests m) in
  let m' :=
    answered [EvWrite s c (Buffer_new value); EvWriteDone r.1 r.2] m in
  match cb with
  | VFun f => (Returned tt, emit [EvCall f [r.1; r.2]] m')
  | _ => (Returned tt, m')
  end.
Proof.
  unfold _writeServiceCharacteristic. simpl.
  destruct (tp (requests m)) as [err data].
  destruct cb; reflexivity.
Qed.

(** The write primitive, run with a handler written inside the driver: the
    handler's body runs once the transport has answered. *)
Lemma run_write_Closure (tp : Transport) (s c value : Value)
    (body : list Value -> Prog unit) (m : Machine) :
  run tp (_writeServiceCharacteristic s c value (Closure body)) m =
  let r := tp (requests m) in
  run tp (body [r.1; r.2])
    (answered [EvWrite s c (Buffer_new value); EvWriteDone r.1 r.2] m).
Proof.
  unfold _writeServiceCharacteristic. simpl.
  destruct (tp (requests m)) as [err data]. reflexivity.
Qed.

(** ** devModeOn *)

(** C1: for every callback function [cb], [devModeOn(cb)] issues exactly
    three characteristic writes, in this order: the anti-DoS bytes
    [0x30,0x31,0x31,0x69,0x33] to the anti-DoS characteristic, then 7 to the
    TX-power characteristic, then 1 to the wake characteristic; each write
    is issued only after the previous one has completed, and [cb] is called
    once, with the (error, data) result of the third write. *)
Theorem devModeOn_three_sequential_writes
    (tp : Transport) (n : nat) (d : BB8Driver) (cb : string) :
  let p := devModeOn (External (VFun cb)) in
  events tp n d p =
    [ EvLog "BB8Driver.devModeOn" [];
      EvLog "BB8Driver.setAntiDos" [];
      EvWrite BLE_SERVICE BLE_ANTI_DOS (Buffer_new anti_dos_bytes);
      EvWriteDone (tp n).1 (tp n).2;
      EvLog "BB8Driver.setTXPower (level)" [VNum 7];
      EvWrite BLE_SERVICE BLE_TX_POWER (Buffer_new (VNum 7));
      EvWriteDone (tp (S n)).1 (tp (S n)).2;
      EvLog "BB8Driver.wake" [];
      EvWrite BLE_SERVICE BLE_WAKE (Buffer_new (VNum 1));
      EvWriteDone (tp (S (S n))).1 (tp (S (S n))).2;
      EvCall cb [(tp (S (S n))).1; (tp (S (S n))).2] ]
  /\ writes (events tp n d p) =
       [ (BLE_SERVICE, BLE_ANTI_DOS, Buffer_new anti_dos_bytes);
         (BLE_SERVICE, BLE_TX_POWER, Buffer_new (VNum 7));
         (BLE_SERVICE, BLE_WAKE, Buffer_new (VNum 1)) ]
  /\ calls (events tp n d p) =
       [ (cb, [(tp (S (S n))).1; (tp (S (S n))).2]) ]
  /\ result tp n d p = Returned tt.
Proof.
  unfold events, result, exec, devModeOn, setAntiDos, setTXPower, wake.
  answer_transport. repeat split; reflexivity.
Qed.

(** C4: in [devModeOn]'s chain the (error, data) result of the anti-DoS step
    and of the TX-power step is not inspected: whatever the transport reports
    on step one ([e1], [d1]) and on step two ([e2], [d2]), and whatever the
    callback argument is, the TX-power write and the wake write are still
    issued, each right after the completion of the step before it. *)
Theorem devModeOn_ignores_intermediate_results
    (tp : Transport) (n : nat) (d : BB8Driver) (callback : Value)
    (e1 d1 e2 d2 : Value) :
  tp n = (e1, d1) ->
  tp (S n) = (e2, d2) ->
  take 9 (events tp n d (devModeOn (External callback))) =
    [ EvLog "BB8Driver.devModeOn" [];
      EvLog "BB8Driver.setAntiDos" [];
      EvWrite BLE_SERVICE BLE_ANTI_DOS (Buffer_new anti_dos_bytes);
      EvWriteDone e1 d1;
      EvLog "BB8Driver.setTXPower (level)" [VNum 7];
      EvWrite BLE_SERVICE BLE_TX_POWER (Buffer_new (VNum 7));
      EvWriteDone e2 d2;
      EvLog "BB8Driver.wake" [];
      EvWrite BLE_SERVICE BLE_WAKE (Buffer_new (VNum 1)) ]
  /\ writes (events tp n d (devModeOn (External callback))) =
       [ (BLE_SERVICE, BLE_ANTI_DOS, Buffer_new anti_dos_bytes);
         (BLE_SERVICE, BLE_TX_POWER, Buffer_new (VNum 7));
         (BLE_SERVICE, BLE_WAKE, Buffer_new (VNum 1)) ].
Proof.
  intros H1 H2.
  unfold events, exec, devModeOn, setAntiDos, setTXPower, wake.
  simpl. rewrite H1. simpl. rewrite H2. simpl.
  destruct (tp (S (S n))) as [e3 d3]. simpl.
  destruct callback; split; reflexivity.
Qed.

(** When the callback argument is not a function the three writes are
    issued all the same, and the handler of the last one raises on calling
    it. *)
Lemma devModeOn_non_function_callback_raises
    (tp : Transport) (n : nat) (d : BB8Driver) (callback : Value) :
  typeof_function callback = false ->
  result tp n d (devModeOn (External callback)) =
    Raised (TypeError_not_a_function callback)
  /\ length (writes (events tp n d (devModeOn (External callback)))) = 3%nat
  /\ calls (events tp n d (devModeOn (External callback))) = [].
Proof.
  intros Hcb.
  unfold events, result, exec, devModeOn, setAntiDos, setTXPower, wake.
  answer_transport. destruct callback; try discriminate; auto.
Qed.

(** ** setAntiDos *)

Lemma get_list_ascii (str : string) (i : nat) :
  String.get i str = list_ascii_of_string str !! i.
Proof.
  revert i. induction str as [| a str IH]; intros [| i]; simpl; auto.
Qed.

Lemma length_list_ascii (str : string) :
  length (list_ascii_of_string str) = String.length str.
Proof. induction str as [| a str IH]; simpl; congruence. Qed.

Lemma char_codes_lookup (str : string) (i : nat) :
  (i < String.length str)%nat ->
  char_codes str !! i = Some (charCodeAt str i).
Proof.
  intros Hi. unfold char_codes, charCodeAt.
  rewrite list_lookup_fmap, get_list_ascii.
  destruct (list_ascii_of_string str !! i) as [a |] eqn:E; [reflexivity |].
  apply lookup_ge_None in E. rewrite length_list_ascii in E. lia.
Qed.

(** The loop, started anywhere: it appends the codes of the characters from
    [i] on, provided [n] covers what is left of the string. *)
Lemma setAntiDos_loop_from (str : string) (n i : nat) (bytes : list Value) :
  (i + n = String.length str)%nat ->
  setAntiDos_loop str n i bytes = bytes ++ drop i (char_codes str).
Proof.
  revert i bytes. induction n as [| n IH]; intros i bytes Hn; simpl.
  - rewrite drop_ge; [by rewrite app_nil_r |].
    unfold char_codes. rewrite length_map, length_list_ascii. lia.
  - assert (Hi : (i < String.length str)%nat) by lia.
    apply Nat.ltb_lt in Hi as Hb. rewrite Hb.
    rewrite IH by lia.
    rewrite (drop_S _ _ _ (char_codes_lookup str i Hi)).
    by rewrite <- app_assoc.
Qed.

(** For every string the loop builds exactly its character codes. *)
Lemma setAntiDos_loop_char_codes (str : string) :
  setAntiDos_loop str (String.length str) 0 [] = char_codes str.
Proof. by rewrite setAntiDos_loop_from. Qed.

(** C8: every call to [setAntiDos], whatever the driver's state, the
    transport's history and answers and the callback argument, writes exactly
    the 5 bytes [0x30, 0x31, 0x31, 0x69, 0x33], the character codes of
    ["011i3"], to the anti-DoS characteristic of the BLE service, and writes
    nothing else. *)
Theorem setAntiDos_fixed_bytes
    (tp : Transport) (n : nat) (d : BB8Driver) (callback : Value) :
  writes (events tp n d (setAntiDos (External callback))) =
    [ (BLE_SERVICE, BLE_ANTI_DOS, Buffer_new anti_dos_bytes) ]
  /\ anti_dos_bytes = VArr (char_codes "011i3")
  /\ anti_dos_bytes = VArr [VNum 48; VNum 49; VNum 49; VNum 105; VNum 51]
  /\ BLE_SERVICE = VStr "22bb746f2bb075542d6f726568705327"
  /\ BLE_ANTI_DOS = VStr "22bb746f2bbd75542d6f726568705327".
Proof.
  unfold events, exec, setAntiDos.
  rewrite setAntiDos_loop_char_codes.
  answer_transport. destruct callback; repeat split; reflexivity.
Qed.

(** ** roll and stop *)

(** The packet [roll] asks the encoder for. *)
Lemma run_roll (tp : Transport) (speed hd state callback : Value)
    (m : Machine) :
  run tp (roll speed hd state (External callback)) m =
  run tp
    (_writeServiceCharacteristic ROBOT_SERVICE ROBOT_COMMAND
       (Sphero_commands "api" "roll" [speed; hd; state; opts_resetTimeout])
       (External callback))
    {| this := set_heading hd (this m);
       requests := requests m;
       trace := (trace m ++
                 [EvLog "BB8Driver.roll (speed,heading,state)"
                    [speed; hd; state]]) ++ [EvSetHeading hd] |}.
Proof. reflexivity. Qed.

(** ** The write and lookup primitives *)

(** C7: for every service id and characteristic id, when the transport's
    characteristic lookup reports a truthy error the caller's callback is
    called with that error alone, and otherwise it is called with [null] and
    the notifier the transport supplied. *)
Theorem getServiceCharacteristic_normalizes
    (tp : Transport) (n : nat) (d : BB8Driver) (s c : Value) (cb : string) :
  let p := getServiceCharacteristic s c (External (VFun cb)) in
  let error := (tp n).1 in
  let notifier := (tp n).2 in
  events tp n d p =
    [ EvGetCharacteristic s c;
      EvGetCharacteristicDone error notifier;
      EvCall cb (if truthy error then [error] else [VNull; notifier]) ]
  /\ calls (events tp n d p) =
       [ (cb, if truthy error then [error] else [VNull; notifier]) ].
Proof.
  unfold events, exec, getServiceCharacteristic. simpl.
  destruct (tp n) as [error notifier]. simpl.
  destruct (truthy error); split; reflexivity.
Qed.

(** ** The heading field *)

Lemma heading_sets_app (tr1 tr2 : list Event) :
  heading_sets (tr1 ++ tr2) = heading_sets tr1 ++ heading_sets tr2.
Proof. apply omap_app. Qed.

(** An effect other than the assignment leaves the driver object as it is. *)
Lemma handle_heading_untouched {X : Type} (tp : Transport) (e : Effect X)
    (m : Machine) :
  assigns_heading e = false ->
  this (handle tp e m).2 = this m
  /\ heading_sets (trace (handle tp e m).2) = heading_sets (trace m).
Proof.
  destruct e; simpl; intros He; try discriminate;
    rewrite ?heading_sets_app, ?app_nil_r; auto.
Qed.

(** By induction on the program: without an assignment in it, no run of it
    changes the driver object, whatever the transport answers. *)
Lemma run_heading_untouched {A : Type} (tp : Transport) (p : Prog A) :
  heading_untouched p ->
  forall m : Machine,
    this (run tp p m).2 = this m
    /\ heading_sets (trace (run tp p m).2) = heading_sets (trace m).
Proof.
  induction 1 as [a | e | X e k He Hk IH]; intros m; simpl; auto.
  destruct (handle_heading_untouched tp e m He) as [Hthis Hsets].
  destruct (handle tp e m) as [x m']. simpl in *.
  destruct (IH x m') as [IHthis IHsets]. split; congruence.
Qed.

Lemma call_External_untouched (v : Value) (args : list Value) :
  heading_untouched (call (External v) args).
Proof.
  destruct v; simpl; try constructor; try reflexivity; intros; constructor.
Qed.

Lemma write_External_untouched (s c value callback : Value) :
  heading_untouched
    (_writeServiceCharacteristic s c value (External callback)).
Proof.
  constructor; [reflexivity |]. intros [err data]. simpl.
  destruct (typeof_function callback).
  - apply call_External_untouched.
  - constructor.
Qed.

Lemma write_Closure_untouched (s c value : Value)
    (body : list Value -> Prog unit) :
  (forall args, heading_untouched (body args)) ->
  heading_untouched (_writeServiceCharacteristic s c value (Closure body)).
Proof.
  intros Hbody. constructor; [reflexivity |]. intros [err data]. apply Hbody.
Qed.

Lemma logged_untouched (msg : string) (args : list Value) (p : Prog unit) :
  heading_untouched p ->
  heading_untouched (trigger (Logger_debug msg args) ;; p).
Proof. intros Hp. constructor; [reflexivity |]. intros []. exact Hp. Qed.

Lemma devModeOn_untouched (callback : Value) :
  heading_untouched (devModeOn (External callback)).
Proof.
  unfold devModeOn, setAntiDos, setTXPower, wake.
  repeat first [ apply logged_untouched
               | apply write_Closure_untouched; intros ? ].
  apply call_External_untouched.
Qed.

(** Every prototype function except [roll] and [stop] is free of
    assignments to the heading. *)
Lemma apply_method_untouched (f : Method) (args : list Value) :
  f <> m_roll -> f <> m_stop ->
  heading_untouched (apply_method f args).
Proof.
  intros Hroll Hstop.
  destruct f; try congruence; simpl;
    try apply devModeOn_untouched;
    try (apply logged_untouched;
         first [ apply write_External_untouched
               | apply call_External_untouched ]).
  - apply write_External_untouched.
  - unfold _readServiceCharacteristic, trigger.
    constructor; [reflexivity |]. intros x. constructor.
  - constructor; [reflexivity |]. intros [error notifier]. simpl.
    destruct (truthy error); apply call_External_untouched.
Qed.

(** C10: the heading is 0 at construction and only [roll] changes it (to its
    heading argument).  Called with any arguments in any state, every other
    prototype function (wake, setTXPower, devModeOn, setAntiDos, setRGB,
    setRawMotorValues, setStabilization, setDataStreaming, getDeviceMode,
    getRGB, getChassisID, getPowerState, start, halt and the write, read and
    lookup primitives) leaves the stored heading as it was and never assigns
    it; [stop] assigns it the value it already holds. *)
Theorem heading_changed_only_by_roll
    (tp : Transport) (n : nat) (d : BB8Driver) (f : Method)
    (args : list Value) :
  f <> m_roll ->
  heading new_BB8Driver = VNum 0
  /\ heading (final tp n d (apply_method f args)) = heading d
  /\ heading_sets (events tp n d (apply_method f args)) =
       (if decide (f = m_stop) then [heading d] else [])
  /\ heading (final tp n d (apply_method m_roll args)) = arg 1 args.
Proof.
  intros Hroll. split; [reflexivity |].
  assert (Hrolled :
    heading (final tp n d (apply_method m_roll args)) = arg 1 args).
  { unfold final, exec. simpl apply_method. rewrite run_roll, run_write_External.
    simpl. destruct (arg 3 args); reflexivity. }
  enough (Hf :
    heading (final tp n d (apply_method f args)) = heading d
    /\ heading_sets (events tp n d (apply_method f args)) =
         (if decide (f = m_stop) then [heading d] else []))
    by (destruct Hf; auto).
  clear Hrolled.
  destruct (decide (f = m_stop)) as [-> | Hstop].
  - unfold final, events, exec. simpl apply_method. unfold stop. simpl.
    destruct (tp n) as [err data].
    destruct (arg 0 args); simpl; auto.
  - destruct (run_heading_untouched tp _
                (apply_method_untouched f args Hroll Hstop)
                {| this := d; requests := n; trace := [] |})
      as [Hthis Hsets].
    unfold final, events, exec. rewrite Hthis, Hsets. auto.
Qed.

(** ** All prototype functions at once *)

(** Unfolds the call in the goal down to the write primitive, splits on the
    value in callback position and runs it. *)
Ltac run_method_cases :=
  unfold events, result, final, exec;
  cbn [apply_method];
  try match goal with
      | |- context [External ?v] => destruct v
      end;
  unfold start, halt, wake, setTXPower, devModeOn, setAntiDos, setRGB, roll,
    stop, setRawMotorValues, setStabilization, setDataStreaming,
    getDeviceMode, getRGB, getPowerState, getChassisID,
    _writeServiceCharacteristic, _readServiceCharacteristic,
    getServiceCharacteristic;
  answer_transport.

(** X4: except through the raw write primitive, whose target is the
    caller's, the driver writes only to the wake, TX-power and anti-DoS
    characteristics of the BLE service and to the command characteristic of
    the robot service; in particular it never writes to the RSSI or the
    notify characteristic. *)
Theorem writes_stay_within_targets
    (tp : Transport) (n : nat) (d : BB8Driver) (f : Method)
    (args : list Value) :
  f <> m__writeServiceCharacteristic ->
  Forall (fun w => (w.1.1, w.1.2) ∈ write_targets
                   /\ w.1.2 <> BLE_RSSI /\ w.1.2 <> ROBOT_NOTIFY)
    (writes (events tp n d (apply_method f args))).
Proof.
  intros Hraw.
  assert (Hin : forall s c buf,
    (s, c) ∈ write_targets ->
    (fun w : Value * Value * Value =>
       (w.1.1, w.1.2) ∈ write_targets
       /\ w.1.2 <> BLE_RSSI /\ w.1.2 <> ROBOT_NOTIFY) (s, c, buf)).
  { intros s c buf Hsc. simpl. split; [exact Hsc |].
    unfold write_targets in Hsc.
    repeat (apply elem_of_cons in Hsc as [Hsc | Hsc];
            [injection Hsc as -> ->; split; discriminate |]).
    by apply elem_of_nil in Hsc. }
  assert (Hwake : (BLE_SERVICE, BLE_WAKE) ∈ write_targets)
    by (unfold write_targets;
        repeat first [ apply list_elem_of_here | apply list_elem_of_further ]).
  assert (Htx : (BLE_SERVICE, BLE_TX_POWER) ∈ write_targets)
    by (unfold write_targets;
        repeat first [ apply list_elem_of_here | apply list_elem_of_further ]).
  assert (Hdos : (BLE_SERVICE, BLE_ANTI_DOS) ∈ write_targets)
    by (unfold write_targets;
        repeat first [ apply list_elem_of_here | apply list_elem_of_further ]).
  assert (Hcmd : (ROBOT_SERVICE, ROBOT_COMMAND) ∈ write_targets)
    by (unfold write_targets;
        repeat first [ apply list_elem_of_here | apply list_elem_of_further ]).
  destruct f; try congruence; run_method_cases;
    try match goal with
        | |- context [truthy ?e] => destruct (truthy e)
        end;
    repeat first [ apply Forall_nil_2 | apply Forall_cons_2 ];
    auto.
Qed.

(** X6: only stop reads the stored heading.  What any other prototype
    function does (its whole trace: log lines, transport requests, callback
    calls) and whether it raises is the same from every driver state. *)
Theorem only_stop_reads_heading
    (tp : Transport) (n : nat) (d d' : BB8Driver) (f : Method)
    (args : list Value) :
  f <> m_stop ->
  events tp n d (apply_method f args) = events tp n d' (apply_method f args)
  /\ result tp n d (apply_method f args) =
     result tp n d' (apply_method f args).
Proof.
  intros Hstop.
  destruct f; try congruence; run_method_cases;
    try match goal with
        | |- context [truthy ?e] => destruct (truthy e)
        end;
    split; reflexivity.
Qed.

(** X7: what the driver writes never depends on the transport: for every
    prototype function and arguments, the characteristic writes (targets and
    payloads, in order) are the same whatever the transport answers and
    however many requests it has served.  Nothing is retried, skipped or
    changed in reaction to an error. *)
Theorem writes_do_not_depend_on_transport
    (tp tp' : Transport) (n n' : nat) (d : BB8Driver) (f : Method)
    (args : list Value) :
  writes (events tp n d (apply_method f args)) =
  writes (events tp' n' d (apply_method f args)).
Proof.
  destruct f; run_method_cases;
    repeat match goal with
           | |- context [truthy ?e] => destruct (truthy e)
           end;
    reflexivity.
Qed.

(** X9: devModeOn is its three steps in a row.  With a callback function
    [cb], [devModeOn(cb)] does, after its own log line, exactly what
    [setAntiDos()], then [setTXPower(7)], then [wake(cb)] do when each is
    called once the one before has completed. *)
Theorem devModeOn_is_its_three_steps
    (tp : Transport) (n : nat) (d : BB8Driver) (cb : string) :
  let steps :=
    setAntiDos (External VUndefined) ;;
    setTXPower (VNum 7) (External VUndefined) ;;
    wake (External (VFun cb)) in
  events tp n d (devModeOn (External (VFun cb))) =
    EvLog "BB8Driver.devModeOn" [] :: events tp n d steps
  /\ result tp n d (devModeOn (External (VFun cb))) = result tp n d steps
  /\ final tp n d (devModeOn (External (VFun cb))) = final tp n d steps.
Proof.
  unfold events, result, final, exec, devModeOn, setAntiDos, setTXPower, wake.
  answer_transport. repeat split; reflexivity.
Qed.

End Driver.

(** ** The driver when a library throws *)

(** With libraries that never throw, [Raising] is the prototype of the
    section above. *)
Lemma accepting_libraries_agree
    (Buffer_new : Value -> Value)
    (Sphero_commands : string -> string -> list Value -> Value)
    (f : Method) (args : list Value) :
  Raising.apply_method (lib := Raising.accepting Buffer_new Sphero_commands)
    f args =
  apply_method Buffer_new Sphero_commands f args.
Proof. destruct f; reflexivity. Qed.

Section Raising_facts.

Context {lib : Raising.Libraries}.

(** Runs the call in the goal, splitting on what each library call comes to
    and naming each answer of the transport. *)
Ltac run_with_libraries :=
  repeat (simpl;
          match goal with
          | |- context [Raising.eval ?r] => destruct r
          | |- context [match ?r with
                        | Raising.Gives _ => _
                        | Raising.Throws _ => _
                        end] => destruct r
          | |- context [let (_, _) := ?r in _] => destruct r as [? ?]
          end);
  simpl.

(** C6, amended: for every service id, characteristic id and value that
    [new Buffer] accepts, the write primitive called with a callback argument
    that is not a function ([undefined] when omitted) raises nothing and
    calls nothing, and called with a function it calls it once with the
    transport's (error, data) unchanged: the callback is called if and only
    if it is a function.  When [new Buffer(value)] throws, the primitive
    raises that error before the transport is reached and the callback is
    not called, whatever it is. *)
Theorem write_primitive_outcome
    (tp : Transport) (n : nat) (d : BB8Driver) (s c value callback : Value) :
  let p := Raising._writeServiceCharacteristic s c value (External callback) in
  match Raising.Buffer_new value with
  | Raising.Gives buf =>
      result tp n d p = Returned tt
      /\ events tp n d p =
           [ EvWrite s c buf; EvWriteDone (tp n).1 (tp n).2 ]
           ++ match callback with
              | VFun cb => [EvCall cb [(tp n).1; (tp n).2]]
              | _ => []
              end
      /\ calls (events tp n d p) =
           match callback with
           | VFun cb => [(cb, [(tp n).1; (tp n).2])]
           | _ => []
           end
      /\ (calls (events tp n d p) <> [] <-> typeof_function callback = true)
  | Raising.Throws e =>
      result tp n d p = Raised (Library_exception e)
      /\ events tp n d p = []
  end.
Proof.
  unfold events, result, exec, Raising._writeServiceCharacteristic.
  run_with_libraries; [| split; reflexivity].
  destruct callback; simpl; repeat split; try reflexivity;
    try congruence; try discriminate.
Qed.

(** C9, amended: for every integer [level] that [new Buffer] accepts and
    every callback function [cb], [setTXPower(level, cb)] triggers exactly
    one characteristic write, to the TX-power characteristic of the BLE
    service, with payload [new Buffer(level)], and [cb] receives the
    transport's (error, data) unchanged.  When [new Buffer(level)] throws,
    [setTXPower] raises that error after its log line: nothing is written
    and [cb] is not called. *)
Theorem setTXPower_outcome
    (tp : Transport) (n : nat) (d : BB8Driver) (level : Z) (cb : string) :
  let p := Raising.setTXPower (VNum level) (External (VFun cb)) in
  match Raising.Buffer_new (VNum level) with
  | Raising.Gives buf =>
      events tp n d p =
        [ EvLog "BB8Driver.setTXPower (level)" [VNum level];
          EvWrite BLE_SERVICE BLE_TX_POWER buf;
          EvWriteDone (tp n).1 (tp n).2;
          EvCall cb [(tp n).1; (tp n).2] ]
      /\ writes (events tp n d p) = [ (BLE_SERVICE, BLE_TX_POWER, buf) ]
      /\ calls (events tp n d p) = [ (cb, [(tp n).1; (tp n).2]) ]
      /\ result tp n d p = Returned tt
  | Raising.Throws e =>
      events tp n d p = [ EvLog "BB8Driver.setTXPower (level)" [VNum level] ]
      /\ result tp n d p = Raised (Library_exception e)
  end.
Proof.
  unfold events, result, exec, Raising.setTXPower,
    Raising._writeServiceCharacteristic.
  run_with_libraries; repeat split; reflexivity.
Qed.

(** C3, amended: for all integers [speed], [hd], [state] and every callback
    argument, [roll(speed, hd, state, cb)] (a) stores [hd] in the heading
    field right after its log line, before the encoder is called and before
    any write, and the heading stays stored also when the call then raises;
    (b) when the encoder accepts [(speed, hd, state, {resetTimeout: true})]
    and [new Buffer] accepts the packet, it issues exactly one write, of
    that packet, to the command characteristic of the robot service; when
    the encoder or [new Buffer] throws, roll raises that error and writes
    nothing. *)
Theorem roll_stores_heading_then_encodes
    (tp : Transport) (n : nat) (d : BB8Driver) (speed hd state : Z)
    (callback : Value) :
  let p :=
    Raising.roll (VNum speed) (VNum hd) (VNum state) (External callback) in
  let logged :=
    [ EvLog "BB8Driver.roll (speed,heading,state)"
        [VNum speed; VNum hd; VNum state];
      EvSetHeading (VNum hd) ] in
  heading (final tp n d p) = VNum hd
  /\ take 2 (events tp n d p) = logged
  /\ match Raising.Sphero_commands "api" "roll"
             [VNum speed; VNum hd; VNum state;
              VObj [("resetTimeout", VBool true)]] with
     | Raising.Throws e =>
         events tp n d p = logged
         /\ result tp n d p = Raised (Library_exception e)
     | Raising.Gives packet =>
         match Raising.Buffer_new packet with
         | Raising.Throws e =>
             events tp n d p = logged
             /\ result tp n d p = Raised (Library_exception e)
         | Raising.Gives buf =>
             events tp n d p =
               logged
               ++ [ EvWrite ROBOT_SERVICE ROBOT_COMMAND buf;
                    EvWriteDone (tp n).1 (tp n).2 ]
               ++ match callback with
                  | VFun cb => [EvCall cb [(tp n).1; (tp n).2]]
                  | _ => []
                  end
             /\ writes (events tp n d p) =
                  [ (ROBOT_SERVICE, ROBOT_COMMAND, buf) ]
             /\ result tp n d p = Returned tt
         end
     end.
Proof.
  unfold events, result, final, exec, Raising.roll,
    Raising._writeServiceCharacteristic, opts_resetTimeout.
  run_with_libraries; try (repeat split; reflexivity).
  destruct callback; repeat split; reflexivity.
Qed.

(** Events already in the trace do not influence a run: it appends to
    them what it would have recorded from an empty trace.  By induction on
    the program. *)
Lemma run_from_trace {A : Type} (tp : Transport) (p : Prog A)
    (d : BB8Driver) (k : nat) (tr : list Event) :
  run tp p {| this := d; requests := k; trace := tr |} =
  let out := run tp p {| this := d; requests := k; trace := [] |} in
  (out.1, {| this := this out.2;
             requests := requests out.2;
             trace := tr ++ trace out.2 |}).
Proof.
  revert d k tr. induction p as [a | e | X e cont IH]; intros d k tr.
  - simpl. by rewrite app_nil_r.
  - simpl. by rewrite app_nil_r.
  - destruct e; simpl; unfold emit, answered; simpl;
      match goal with
      | |- run tp ?q {| this := ?d'; requests := ?k'; trace := tr ++ ?evs |} =
           _ =>
          rewrite (IH _ d' k' (tr ++ evs)), (IH _ d' k' evs); simpl;
          by rewrite <- app_assoc
      | |- _ => apply IH
      end.
Qed.

(** [stop] is its log line followed by [roll(0, this.heading, 1, callback)]. *)
Lemma stop_as_roll (tp : Transport) (n : nat) (d : BB8Driver)
    (callback : Value) :
  let rolled :=
    Raising.roll (VNum 0) (heading d) (VNum 1) (External callback) in
  events tp n d (Raising.stop (External callback)) =
    EvLog "BB8Driver.stop" [] :: events tp n d rolled
  /\ result tp n d (Raising.stop (External callback)) = result tp n d rolled
  /\ final tp n d (Raising.stop (External callback)) = final tp n d rolled.
Proof.
  unfold events, result, final, exec.
  change (run tp (Raising.stop (External callback))
            {| this := d; requests := n; trace := [] |})
    with (run tp
            (Raising.roll (VNum 0) (heading d) (VNum 1) (External callback))
            {| this := d; requests := n;
               trace := [EvLog "BB8Driver.stop" []] |}).
  rewrite run_from_trace. simpl. auto.
Qed.

(** Whatever becomes of the call, [roll] leaves its heading argument
    stored. *)
Lemma roll_final (tp : Transport) (n : nat) (d : BB8Driver)
    (speed h state callback : Value) :
  final tp n d (Raising.roll speed h state (External callback)) =
  set_heading h d.
Proof.
  unfold final, exec, Raising.roll, Raising._writeServiceCharacteristic.
  run_with_libraries; try reflexivity. destruct callback; reflexivity.
Qed.

(** The writes of a [roll], by what the libraries make of its arguments. *)
Lemma roll_writes (tp : Transport) (n : nat) (d : BB8Driver)
    (speed h state callback : Value) :
  let p := Raising.roll speed h state (External callback) in
  match Raising.Sphero_commands "api" "roll"
          [speed; h; state; opts_resetTimeout] with
  | Raising.Gives packet =>
      match Raising.Buffer_new packet with
      | Raising.Gives buf =>
          writes (events tp n d p) = [ (ROBOT_SERVICE, ROBOT_COMMAND, buf) ]
          /\ result tp n d p = Returned tt
      | Raising.Throws e =>
          writes (events tp n d p) = []
          /\ result tp n d p = Raised (Library_exception e)
      end
  | Raising.Throws e =>
      writes (events tp n d p) = []
      /\ result tp n d p = Raised (Library_exception e)
  end.
Proof.
  unfold events, result, exec, Raising.roll,
    Raising._writeServiceCharacteristic.
  run_with_libraries; try (split; reflexivity).
  destruct callback; split; reflexivity.
Qed.

(** C2: in every driver state, with [h] the stored heading, [stop(cb)]
    issues exactly the write [roll(0, h, 1, cb)] issues: beyond its own log
    line [stop] does all and only what that [roll] does, with the same
    result and the same final state.  The write is the packet the encoder
    builds from speed 0, heading [h], roll state 1, sent to the command
    characteristic of the robot service; when the encoder or [new Buffer]
    rejects it, neither call writes.  In particular, once
    [roll(50, 90, 1, ...)] has stored 90, [stop] writes what
    [roll(0, 90, 1, cb)] writes. *)
Theorem stop_is_roll_zero_at_stored_heading
    (tp : Transport) (n n0 : nat) (d : BB8Driver)
    (callback callback0 : Value) :
  let h := heading d in
  let stopped := Raising.stop (External callback) in
  let rolled := Raising.roll (VNum 0) h (VNum 1) (External callback) in
  writes (events tp n d stopped) = writes (events tp n d rolled)
  /\ events tp n d stopped = EvLog "BB8Driver.stop" [] :: events tp n d rolled
  /\ result tp n d stopped = result tp n d rolled
  /\ final tp n d stopped = final tp n d rolled
  /\ match Raising.Sphero_commands "api" "roll"
             [VNum 0; h; VNum 1; VObj [("resetTimeout", VBool true)]] with
     | Raising.Gives packet =>
         match Raising.Buffer_new packet with
         | Raising.Gives buf =>
             writes (events tp n d stopped) =
               [ (ROBOT_SERVICE, ROBOT_COMMAND, buf) ]
         | Raising.Throws _ => writes (events tp n d stopped) = []
         end
     | Raising.Throws _ => writes (events tp n d stopped) = []
     end
  /\ (let d1 :=
        final tp n0 d
          (Raising.roll (VNum 50) (VNum 90) (VNum 1) (External callback0)) in
      heading d1 = VNum 90
      /\ writes (events tp n d1 stopped) =
         writes (events tp n d1
                   (Raising.roll (VNum 0) (VNum 90) (VNum 1)
                      (External callback)))).
Proof.
  intros h stopped rolled.
  destruct (stop_as_roll tp n d callback) as (Hev & Hres & Hfin).
  assert (Hw : writes (events tp n d stopped) = writes (events tp n d rolled)).
  { unfold stopped, rolled, h. by rewrite Hev. }
  repeat split; auto.
  - rewrite Hw.
    pose proof (roll_writes tp n d (VNum 0) h (VNum 1) callback) as Hroll.
    fold rolled in Hroll. unfold opts_resetTimeout in Hroll.
    destruct (Raising.Sphero_commands "api" "roll" _) as [packet | e];
      [destruct (Raising.Buffer_new packet) as [buf | e] |];
      apply Hroll.
  - by rewrite roll_final.
  - rewrite roll_final.
    destruct (stop_as_roll tp n (set_heading (VNum 90) d) callback)
      as (Hev1 & _ & _).
    unfold stopped. by rewrite Hev1.
Qed.

(** X8: stop uses the heading of the most recent roll, also a roll that was
    rejected.  After [roll(speed, h, state, ...)], returned or raised, the
    stored heading is [h], and a later [stop] is [roll(0, h, 1, cb)]: it
    writes that packet when the encoder and [new Buffer] accept it, and
    raises their error without writing when they do not. *)
Theorem stop_after_roll
    (tp : Transport) (n n' : nat) (d : BB8Driver)
    (speed h state callback0 callback : Value) :
  let d1 :=
    final tp n d (Raising.roll speed h state (External callback0)) in
  let stopped := Raising.stop (External callback) in
  heading d1 = h
  /\ events tp n' d1 stopped =
       EvLog "BB8Driver.stop" []
       :: events tp n' d1
            (Raising.roll (VNum 0) h (VNum 1) (External callback))
  /\ match Raising.Sphero_commands "api" "roll"
             [VNum 0; h; VNum 1; opts_resetTimeout] with
     | Raising.Gives packet =>
         match Raising.Buffer_new packet with
         | Raising.Gives buf =>
             writes (events tp n' d1 stopped) =
               [ (ROBOT_SERVICE, ROBOT_COMMAND, buf) ]
             /\ result tp n' d1 stopped = Returned tt
         | Raising.Throws e =>
             writes (events tp n' d1 stopped) = []
             /\ result tp n' d1 stopped = Raised (Library_exception e)
         end
     | Raising.Throws e =>
         writes (events tp n' d1 stopped) = []
         /\ result tp n' d1 stopped = Raised (Library_exception e)
     end.
Proof.
  intros d1 stopped. unfold d1. rewrite roll_final.
  destruct (stop_as_roll tp n' (set_heading h d) callback)
    as (Hev & Hres & _).
  simpl in Hev, Hres.
  repeat split; [exact Hev |].
  unfold stopped. rewrite Hev, Hres.
  pose proof (roll_writes tp n' (set_heading h d) (VNum 0) h (VNum 1)
                callback) as Hroll.
  destruct (Raising.Sphero_commands "api" "roll" _) as [packet | e];
    [destruct (Raising.Buffer_new packet) as [buf | e] |];
    apply Hroll.
Qed.

(** Unfolds the call in the goal down to the write primitive, splits on the
    value in callback position and runs it. *)
Ltac run_raising_cases :=
  unfold events, result, final, exec;
  cbn [Raising.apply_method callback_position writes_issued];
  try match goal with
      | |- context [External ?v] => destruct v
      end;
  unfold Raising.devModeOn, Raising.stop, Raising.start, Raising.halt,
    Raising.wake, Raising.setTXPower, Raising.setAntiDos, Raising.setRGB,
    Raising.roll, Raising.setRawMotorValues, Raising.setStabilization,
    Raising.setDataStreaming, Raising.getDeviceMode, Raising.getRGB,
    Raising.getPowerState, Raising.getChassisID,
    Raising._writeServiceCharacteristic, Raising._readServiceCharacteristic,
    Raising.getServiceCharacteristic;
  run_with_libraries;
  repeat match goal with
         | |- context [truthy ?e] => destruct (truthy e)
         end.

(** X2: the only function a prototype function ever calls is the value in
    its callback position, and it calls it at most once: never when that
    value is not a function, and never twice, whatever the arguments, the
    transport's answers and the libraries do. *)
Theorem callback_called_at_most_once
    (tp : Transport) (n : nat) (d : BB8Driver) (f : Method)
    (args : list Value) :
  let called := (calls (events tp n d (Raising.apply_method f args))).*1 in
  match arg (callback_position f) args with
  | VFun cb => called = [] \/ called = [cb]
  | _ => called = []
  end.
Proof.
  destruct f; run_raising_cases; auto;
    try (destruct (arg 2 args); auto).
Qed.

(** X3: no call writes more often than its function's code has write
    statements: at most three times for devModeOn, never for start, halt,
    the read primitive and getServiceCharacteristic, at most once for every
    other function, whatever the arguments, the transport's answers and the
    libraries do. *)
Theorem writes_at_most_per_call
    (tp : Transport) (n : nat) (d : BB8Driver) (f : Method)
    (args : list Value) :
  (length (writes (events tp n d (Raising.apply_method f args)))
   <= writes_issued f)%nat.
Proof.
  destruct f; run_raising_cases; simpl; lia.
Qed.

(** X10: each function that builds a packet passes the caller's actual
    arguments before the callback position to its encoder function,
    unchanged and in order (a missing one as [undefined]), followed by its
    options record.  When the encoder gives a packet and [new Buffer]
    accepts it, the function writes it once to the command characteristic of
    the robot service and forwards the transport's (error, data) to a
    callback function; when either throws, the function raises that error,
    writes nothing and calls nothing. *)
Theorem packet_functions_outcome
    (tp : Transport) (n : nat) (d : BB8Driver) (f : Method)
    (args : list Value) (family name : string) (opts : Value) :
  encoder_call f = Some (family, name, opts) ->
  let p := Raising.apply_method f args in
  match Raising.Sphero_commands family name
          (leading_args (callback_position f) args ++ [opts]) with
  | Raising.Gives packet =>
      match Raising.Buffer_new packet with
      | Raising.Gives buf =>
          writes (events tp n d p) = [ (ROBOT_SERVICE, ROBOT_COMMAND, buf) ]
          /\ calls (events tp n d p) =
               match arg (callback_position f) args with
               | VFun cb => [ (cb, [(tp n).1; (tp n).2]) ]
               | _ => []
               end
          /\ result tp n d p = Returned tt
      | Raising.Throws e =>
          writes (events tp n d p) = []
          /\ calls (events tp n d p) = []
          /\ result tp n d p = Raised (Library_exception e)
      end
  | Raising.Throws e =>
      writes (events tp n d p) = []
      /\ calls (events tp n d p) = []
      /\ result tp n d p = Raised (Library_exception e)
  end.
Proof.
  intros Hcall.
  destruct f; simpl in Hcall; try discriminate;
    injection Hcall as <- <- <-;
    cbn [leading_args callback_position seq map app];
    run_raising_cases; repeat split; reflexivity.
Qed.

End Raising_facts.

(** ** Where the unamended claims fail *)

(** C3 as stated fails: the encoder does not accept speed 300, so
    [roll(300, 90, 1, done)] stores heading 90, raises, and writes
    nothing. *)
Lemma roll_out_of_range_writes_nothing :
  let p :=
    Raising.roll (lib := Raising.checking)
      (VNum 300) (VNum 90) (VNum 1) (External (VFun "done")) in
  writes (events failing_transport 0 new_BB8Driver p) = []
  /\ heading (final failing_transport 0 new_BB8Driver p) = VNum 90
  /\ result failing_transport 0 new_BB8Driver p =
       Raised (Library_exception (VStr "RangeError")).
Proof. repeat split; reflexivity. Qed.

(** C6 as stated fails: [new Buffer(undefined)] throws, so the write
    primitive called without a value raises although its callback is not a
    function, and never calls a callback that is one. *)
Lemma write_without_value_raises :
  result failing_transport 0 new_BB8Driver
    (Raising._writeServiceCharacteristic (lib := Raising.checking)
       BLE_SERVICE BLE_WAKE VUndefined (External VUndefined)) =
    Raised (Library_exception (VStr "TypeError"))
  /\ calls (events failing_transport 0 new_BB8Driver
              (Raising._writeServiceCharacteristic (lib := Raising.checking)
                 BLE_SERVICE BLE_WAKE VUndefined (External (VFun "done")))) =
       [].
Proof. split; reflexivity. Qed.

(** C9 as stated fails: [new Buffer(-1)] throws, so [setTXPower(-1, done)]
    raises, writes nothing and never calls [done]. *)
Lemma setTXPower_negative_level_raises :
  let p :=
    Raising.setTXPower (lib := Raising.checking)
      (VNum (-1)) (External (VFun "done")) in
  writes (events failing_transport 0 new_BB8Driver p) = []
  /\ calls (events failing_transport 0 new_BB8Driver p) = []
  /\ result failing_transport 0 new_BB8Driver p =
       Raised (Library_exception (VStr "RangeError")).
Proof. repeat split; reflexivity. Qed.

(** ** The constructor *)

(** C5 as stated fails: [setAntiDos] is in the list of operations, and the
    constructor gives [commands] no entry for it. *)
Lemma commands_misses_listed_operations :
  commands new_BB8Driver !! "setAntiDos" = None
  /\ ~ Forall (fun name => is_Some (commands new_BB8Driver !! name))
         [ "wake"; "setTXPower"; "devModeOn"; "setAntiDos"; "setRGB"; "roll";
           "stop"; "setRawMotorValues"; "setStabilization";
           "setDataStreaming"; "getDeviceMode"; "getRGB"; "getChassisID";
           "getPowerState" ].
Proof.
  split; [reflexivity |].
  intros Hall. rewrite Forall_forall in Hall.
  destruct (Hall "setAntiDos") as [f Hf].
  - repeat first [ apply list_elem_of_here | apply list_elem_of_further ].
  - discriminate Hf.
Qed.

(** C5, amended: a freshly constructed driver has [start(callback)] and
    [halt(callback)], each of which logs and calls the callback with no
    argument, and a [commands] mapping that binds each of wake, setTXPower,
    setRGB, roll, stop, setRawMotorValues and setStabilization to the
    prototype function of that name; setAntiDos, setDataStreaming,
    getDeviceMode, getRGB, getChassisID and getPowerState are prototype
    functions without an entry in [commands]. *)
Theorem commands_of_new_driver
    (tp : Transport) (n : nat) (d : BB8Driver) (cb : string) :
  prototype !! "start" = Some m_start
  /\ prototype !! "halt" = Some m_halt
  /\ events tp n d (start (External (VFun cb))) =
       [ EvLog "BB8Driver.start" []; EvCall cb [] ]
  /\ events tp n d (halt (External (VFun cb))) =
       [ EvLog "BB8Driver.halt" []; EvCall cb [] ]
  /\ Forall (fun name =>
               is_Some (commands new_BB8Driver !! name)
               /\ commands new_BB8Driver !! name = prototype !! name)
       [ "wake"; "setTXPower"; "setRGB"; "roll"; "stop";
         "setRawMotorValues"; "setStabilization" ]
  /\ Forall (fun name =>
               commands new_BB8Driver !! name = None
               /\ is_Some (prototype !! name))
       [ "setAntiDos"; "setDataStreaming"; "getDeviceMode"; "getRGB";
         "getChassisID"; "getPowerState" ].
Proof.
  repeat split; try reflexivity;
    repeat first [ apply Forall_nil_2 | apply Forall_cons_2 ];
    split; first [ reflexivity | eexists; reflexivity ].
Qed.

(** ** Instances at concrete inputs *)

Lemma devModeOn_ignores_intermediate_results_witness :
  take 9 (events failing_transport 0 new_BB8Driver
            (devModeOn recording_Buffer (External (VFun "done")))) =
    [ EvLog "BB8Driver.devModeOn" [];
      EvLog "BB8Driver.setAntiDos" [];
      EvWrite BLE_SERVICE BLE_ANTI_DOS (recording_Buffer anti_dos_bytes);
      EvWriteDone (VStr "write failed") VUndefined;
      EvLog "BB8Driver.setTXPower (level)" [VNum 7];
      EvWrite BLE_SERVICE BLE_TX_POWER (recording_Buffer (VNum 7));
      EvWriteDone (VStr "write failed") VUndefined;
      EvLog "BB8Driver.wake" [];
      EvWrite BLE_SERVICE BLE_WAKE (recording_Buffer (VNum 1)) ]
  /\ writes (events failing_transport 0 new_BB8Driver
               (devModeOn recording_Buffer (External (VFun "done")))) =
       [ (BLE_SERVICE, BLE_ANTI_DOS, recording_Buffer anti_dos_bytes);
         (BLE_SERVICE, BLE_TX_POWER, recording_Buffer (VNum 7));
         (BLE_SERVICE, BLE_WAKE, recording_Buffer (VNum 1)) ].
Proof.
  apply (devModeOn_ignores_intermediate_results recording_Buffer
           failing_transport 0 new_BB8Driver (VFun "done")
           (VStr "write failed") VUndefined (VStr "write failed") VUndefined);
    reflexivity.
Defined.

Lemma heading_changed_only_by_roll_witness :
  heading new_BB8Driver = VNum 0
  /\ heading (final failing_transport 0 (set_heading (VNum 90) new_BB8Driver)
                (apply_method recording_Buffer recording_encoder
                   m_setRGB [VNum 255; VBool false; VFun "done"])) =
       heading (set_heading (VNum 90) new_BB8Driver)
  /\ heading_sets
       (events failing_transport 0 (set_heading (VNum 90) new_BB8Driver)
          (apply_method recording_Buffer recording_encoder
             m_setRGB [VNum 255; VBool false; VFun "done"])) =
       (if decide (m_setRGB = m_stop)
        then [heading (set_heading (VNum 90) new_BB8Driver)]
        else [])
  /\ heading (final failing_transport 0 (set_heading (VNum 90) new_BB8Driver)
                (apply_method recording_Buffer recording_encoder
                   m_roll [VNum 255; VBool false; VFun "done"])) =
       arg 1 [VNum 255; VBool false; VFun "done"].
Proof.
  apply (heading_changed_only_by_roll recording_Buffer recording_encoder
           failing_transport 0 (set_heading (VNum 90) new_BB8Driver)
           m_setRGB [VNum 255; VBool false; VFun "done"]).
  discriminate.
Defined.

Lemma writes_stay_within_targets_witness :
  Forall (fun w => (w.1.1, w.1.2) ∈ write_targets
                   /\ w.1.2 <> BLE_RSSI /\ w.1.2 <> ROBOT_NOTIFY)
    (writes (events failing_transport 0 new_BB8Driver
               (apply_method recording_Buffer recording_encoder
                  m_devModeOn [VFun "done"]))).
Proof.
  apply (writes_stay_within_targets recording_Buffer recording_encoder
           failing_transport 0 new_BB8Driver m_devModeOn [VFun "done"]).
  discriminate.
Defined.

Lemma only_stop_reads_heading_witness :
  events failing_transport 0 new_BB8Driver
    (apply_method recording_Buffer recording_encoder
       m_roll [VNum 50; VNum 90; VNum 1; VFun "done"]) =
  events failing_transport 0 (set_heading (VNum 270) new_BB8Driver)
    (apply_method recording_Buffer recording_encoder
       m_roll [VNum 50; VNum 90; VNum 1; VFun "done"])
  /\ result failing_transport 0 new_BB8Driver
       (apply_method recording_Buffer recording_encoder
          m_roll [VNum 50; VNum 90; VNum 1; VFun "done"]) =
     result failing_transport 0 (set_heading (VNum 270) new_BB8Driver)
       (apply_method recording_Buffer recording_encoder
          m_roll [VNum 50; VNum 90; VNum 1; VFun "done"]).
Proof.
  apply (only_stop_reads_heading recording_Buffer recording_encoder
           failing_transport 0 new_BB8Driver
           (set_heading (VNum 270) new_BB8Driver)
           m_roll [VNum 50; VNum 90; VNum 1; VFun "done"]).
  discriminate.
Defined.


Lemma packet_functions_outcome_witness :
  let p :=
    Raising.apply_method (lib := Raising.checking) m_setRawMotorValues
      [VNum 1; VNum 200; VNum 2; VNum 100; VFun "done"] in
  writes (events failing_transport 0 new_BB8Driver p) =
    [ (ROBOT_SERVICE, ROBOT_COMMAND,
       VArr [VStr "Buffer";
             VArr [VStr "setRawMotorValues"; VNum 1; VNum 200; VNum 2;
                   VNum 100; opts_resetTimeout]]) ]
  /\ calls (events failing_transport 0 new_BB8Driver p) =
       [ ("done", [VStr "write failed"; VUndefined]) ]
  /\ result failing_transport 0 new_BB8Driver p = Returned tt.
Proof.
  exact (packet_functions_outcome (lib := Raising.checking)
           failing_transport 0 new_BB8Driver m_setRawMotorValues
           [VNum 1; VNum 200; VNum 2; VNum 100; VFun "done"]
           "api" "setRawMotorValues" opts_resetTimeout eq_refl).
Defined.
